(** * Presence session tracker: shallow embedding of [tracker.py] and
    [database.py] (DiscordOnlineTimeTrackerBot).

    Timestamps ([datetime]) and durations ([timedelta]) are integers counting
    microseconds in one absolute (UTC) time reference: [b - a] on datetimes is
    [Z.sub].  The SQLite table [presence_sessions] is a list of rows in
    insertion order plus the AUTOINCREMENT counter; the tracker's
    [_active_sessions] dict is a [gmap] keyed by [(guild_id, user_id)].

    Every [await self._database.*] call may raise (sqlite3 errors: the store
    is unavailable).  The state-and-exception monad [M] below keeps the state
    reached when the exception is raised, so the in-place mutations of the
    Python dict made before a failing store call survive, as they do in
    Python. *)

From Stdlib Require Import ZArith List String Ascii Lia Permutation Sorting.Permutation Sorting.Sorted.
From stdpp Require Import gmap strings list fin_maps.

Open Scope string_scope.
Open Scope Z_scope.

(* ------------------------------------------------------------------ *)
(** ** Data model *)

(** [PresenceSession] (database.py): one row of [presence_sessions]. *)
Record PresenceSession := mkRow {
  row_id : Z;
  guild_id : Z;
  user_id : Z;
  status : string;
  started_at : Z;
  ended_at : option Z
}.

(** [ActiveSession] (tracker.py). *)
Record ActiveSession := mkActive {
  as_row_id : Z;
  as_started_at : Z;
  as_status : string
}.

(** The whole state: the database file (rows, AUTOINCREMENT counter,
    availability of the file) and the tracker's [_active_sessions]. *)
Record St := mkSt {
  db_rows : list PresenceSession;
  db_next : Z;
  db_up : bool;
  active_sessions : gmap (Z * Z) ActiveSession
}.

Definition set_rows (rs : list PresenceSession) (nx : Z) (st : St) : St :=
  mkSt rs nx (db_up st) (active_sessions st).

Definition set_active (m : gmap (Z * Z) ActiveSession) (st : St) : St :=
  mkSt (db_rows st) (db_next st) (db_up st) m.

(** The status object handed to the tracker: [None], a
    [discord.Status] member (its [.value]), or any other object (its
    [str()]). *)
Inductive RawStatus :=
| RNone
| RDiscord (value : string)
| RStr (s : string).

(* ------------------------------------------------------------------ *)
(** ** State and exception monad *)

Definition M (A : Type) : Type := St -> option A * St.

Definition ret {A} (a : A) : M A := fun st => (Some a, st).

Definition bind {A B} (m : M A) (k : A -> M B) : M B :=
  fun st => match m st with
            | (Some a, st') => k a st'
            | (None, st') => (None, st')
            end.

Notation "'let!' x := m 'in' k" := (bind m (fun x => k))
  (at level 200, x name, m at level 100, k at level 200).

Definition gets {A} (f : St -> A) : M A := fun st => (Some (f st), st).
Definition modify (f : St -> St) : M unit := fun st => (Some tt, f st).

(** A store statement: raises when the database is unavailable, otherwise
    runs [f] on the state. *)
Definition store_op {A} (f : St -> A * St) : M A :=
  fun st => if db_up st then let '(a, st') := f st in (Some a, st')
            else (None, st).

(* ------------------------------------------------------------------ *)
(** ** Database (database.py) *)

Module Database.

(** [initialize]: CREATE TABLE / INDEX IF NOT EXISTS; rows untouched. *)
Definition initialize : M unit := store_op (fun st => (tt, st)).

(** [UPDATE presence_sessions SET ended_at = ? WHERE ended_at IS NULL] *)
Definition close_row_if_open (closed_at : Z) (r : PresenceSession) : PresenceSession :=
  match ended_at r with
  | None => mkRow (row_id r) (guild_id r) (user_id r) (status r) (started_at r) (Some closed_at)
  | Some _ => r
  end.

Definition close_open_sessions (closed_at : Z) : M unit :=
  store_op (fun st =>
    (tt, set_rows (map (close_row_if_open closed_at) (db_rows st)) (db_next st) st)).

(** [INSERT INTO presence_sessions (guild_id, user_id, status, started_at)]:
    [ended_at] is NULL, the id is the AUTOINCREMENT counter. *)
Definition insert_session (g u : Z) (s : string) (t : Z) : M Z :=
  store_op (fun st =>
    let rid := db_next st in
    (rid, set_rows (db_rows st ++ [mkRow rid g u s t None]) (rid + 1) st)).

(** [UPDATE presence_sessions SET ended_at = ? WHERE id = ?] *)
Definition complete_row (rid : Z) (t : Z) (r : PresenceSession) : PresenceSession :=
  if Z.eqb (row_id r) rid
  then mkRow (row_id r) (guild_id r) (user_id r) (status r) (started_at r) (Some t)
  else r.

Definition complete_session (rid : Z) (t : Z) : M unit :=
  store_op (fun st =>
    (tt, set_rows (map (complete_row rid t) (db_rows st)) (db_next st) st)).

(** [WHERE guild_id = ? AND user_id = ? AND status IN (...)] *)
Definition row_matches (g u : Z) (statuses : list string) (r : PresenceSession) : bool :=
  Z.eqb (guild_id r) g && Z.eqb (user_id r) u
  && existsb (String.eqb (status r)) statuses.

(** [ORDER BY started_at ASC]: a stable insertion sort on the start time. *)
Fixpoint insert_by_start (r : PresenceSession) (l : list PresenceSession) :=
  match l with
  | [] => [r]
  | r' :: l' => if Z.ltb (started_at r) (started_at r') then r :: l
                else r' :: insert_by_start r l'
  end.

Fixpoint sort_by_start (l : list PresenceSession) : list PresenceSession :=
  match l with
  | [] => []
  | r :: l' => insert_by_start r (sort_by_start l')
  end.

Definition select_sessions (g u : Z) (statuses : list string)
    (rows : list PresenceSession) : list PresenceSession :=
  sort_by_start (List.filter (row_matches g u statuses) rows).

Definition fetch_sessions (g u : Z) (statuses : list string) : M (list PresenceSession) :=
  store_op (fun st => (select_sessions g u statuses (db_rows st), st)).

End Database.

(* ------------------------------------------------------------------ *)
(** ** Presence tracker (tracker.py) *)

Module Tracker.

(** [TRACKED_STATUSES = ("online", "idle", "dnd")] *)
Definition TRACKED_STATUSES : list string := ["online"; "idle"; "dnd"].

(** [str.lower] on the ASCII letters. *)
Definition lower_ascii (c : ascii) : ascii :=
  let n := nat_of_ascii c in
  if (65 <=? n)%nat && (n <=? 90)%nat then ascii_of_nat (n + 32) else c.

Fixpoint lower (s : string) : string :=
  match s with
  | EmptyString => EmptyString
  | String c s' => String (lower_ascii c) (lower s')
  end.

(** [_normalize_status] *)
Definition _normalize_status (status : RawStatus) : string :=
  match status with
  | RNone => "offline"
  | RDiscord v => v
  | RStr s => lower s
  end.

(** [_is_tracked]: [status in self.TRACKED_STATUSES] *)
Definition _is_tracked (status : string) : bool :=
  existsb (String.eqb status) TRACKED_STATUSES.

(** [_normalize_statuses]: the elements of the iterable are [str]s;
    [tuple(...) or self.TRACKED_STATUSES] falls back on an empty tuple. *)
Definition _normalize_statuses (statuses : option (list string)) : list string :=
  match statuses with
  | None => TRACKED_STATUSES
  | Some ss =>
      let normalized := map (fun s => _normalize_status (RStr s)) ss in
      match List.filter _is_tracked normalized with
      | [] => TRACKED_STATUSES
      | l => l
      end
  end.

(** [self._active_sessions.pop(key, None)] *)
Definition pop_active (key : Z * Z) : M (option ActiveSession) :=
  fun st => (Some (active_sessions st !! key),
             set_active (delete key (active_sessions st)) st).

Definition set_active_entry (key : Z * Z) (a : ActiveSession) : M unit :=
  modify (fun st => set_active (<[key := a]> (active_sessions st)) st).

(** [_close_session]: the entry is popped from the dict first, the row is
    completed afterwards. *)
Definition _close_session (key : Z * Z) (ended : Z) : M unit :=
  let! session := pop_active key in
  match session with
  | None => ret tt
  | Some s => Database.complete_session (as_row_id s) ended
  end.

(** [setup] at time [now]. *)
Definition setup (now : Z) : M unit :=
  let! _ := Database.initialize in
  Database.close_open_sessions now.

(** [bootstrap_member]; [started_at] is [datetime.now] passed as [now]. *)
Definition bootstrap_member (g u : Z) (status : RawStatus) (now : Z) : M unit :=
  let normalized := _normalize_status status in
  if negb (_is_tracked normalized) then ret tt else
  let key := (g, u) in
  let! m := gets active_sessions in
  match m !! key with
  | Some _ => ret tt
  | None =>
      let! rid := Database.insert_session g u normalized now in
      set_active_entry key (mkActive rid now normalized)
  end.

(** [handle_presence_update] with an explicit [timestamp]. *)
Definition handle_presence_update (g u : Z) (before_status after_status : RawStatus)
    (timestamp : Z) : M unit :=
  let before := _normalize_status before_status in
  let after := _normalize_status after_status in
  let key := (g, u) in
  let! m := gets active_sessions in
  let active := m !! key in
  let before_tracked := _is_tracked before in
  let after_tracked := _is_tracked after in
  let! active :=
    match active with
    | Some a =>
        if before_tracked && (negb after_tracked || negb (String.eqb after (as_status a)))
        then let! _ := _close_session key timestamp in ret None
        else ret active
    | None => ret active
    end in
  if after_tracked then
    match active with
    | None =>
        let! rid := Database.insert_session g u after timestamp in
        set_active_entry key (mkActive rid timestamp after)
    | Some a =>
        if negb (String.eqb (as_status a) after) then
          (* "we have already closed the previous session, start a new one" *)
          let! rid := Database.insert_session g u after timestamp in
          set_active_entry key (mkActive rid timestamp after)
        else ret tt
    end
  else
    match active with
    | Some _ => if negb after_tracked then _close_session key timestamp else ret tt
    | None => ret tt
    end.

(** [end = session.ended_at or now; total += end - session.started_at] *)
Definition session_span (now : Z) (r : PresenceSession) : Z :=
  match ended_at r with
  | Some e => e
  | None => now
  end - started_at r.

Definition sum_spans (now : Z) (sessions : list PresenceSession) : Z :=
  fold_left (fun total r => total + session_span now r) sessions 0.

(** [get_total_duration] with an explicit [now]. *)
Definition get_total_duration (g u : Z) (statuses : option (list string)) (now : Z) : M Z :=
  let statuses_tuple := _normalize_statuses statuses in
  let! sessions := Database.fetch_sessions g u statuses_tuple in
  let total := sum_spans now sessions in
  let! m := gets active_sessions in
  match m !! (g, u) with
  | Some a =>
      if existsb (String.eqb (as_status a)) statuses_tuple
      then ret (total + (now - as_started_at a))
      else ret total
  | None => ret total
  end.

End Tracker.

(* ------------------------------------------------------------------ *)
(** ** Duration formatter ([PresenceTracker.format_timedelta]) *)

Module Format.

(** Decimal digits of [z >= 0], as [f"{z}"] prints them. *)
Definition digit (d : Z) : ascii := ascii_of_nat (48 + Z.to_nat d).

Fixpoint digits (fuel : nat) (z : Z) (acc : string) : string :=
  match fuel with
  | O => acc
  | S f =>
      let acc' := String (digit (z mod 10)) acc in
      if z <? 10 then acc' else digits f (z / 10) acc'
  end.

Definition z_to_string (z : Z) : string :=
  if z <? 0 then "-" ++ digits (S (Z.to_nat (Z.log2 (- z)))) (- z) ""
  else digits (S (Z.to_nat (Z.log2 z))) z "".

(** [int(delta.total_seconds())]: [total_seconds] divides the microseconds
    by [10**6] and [int] truncates toward zero. *)
Definition total_seconds_int (delta : Z) : Z := Z.quot delta 1000000.

(** [format_timedelta]; [divmod] is floor division. *)
Definition format_timedelta (delta : Z) : string :=
  let total_seconds := total_seconds_int delta in
  let hours := total_seconds / 3600 in
  let remainder := total_seconds mod 3600 in
  let minutes := remainder / 60 in
  let seconds := remainder mod 60 in
  let parts := @nil string in
  let parts := if negb (hours =? 0) then app parts [z_to_string hours ++ "h"] else parts in
  let parts := if negb (minutes =? 0) then app parts [z_to_string minutes ++ "m"] else parts in
  let parts := if negb (seconds =? 0) || (match parts with [] => true | _ => false end)
               then app parts [z_to_string seconds ++ "s"] else parts in
  String.concat " " parts.

End Format.

(* ------------------------------------------------------------------ *)
(** ** Helpers for stating properties *)

Module Props.
Import Tracker.

(** A fresh tracker over an empty table (AUTOINCREMENT starts at 1). *)
Definition empty_state : St := mkSt [] 1 true ∅.

(** Rows of the key still open ([ended_at IS NULL]). *)
Definition open_rows (g u : Z) (rows : list PresenceSession) : list PresenceSession :=
  List.filter (fun r => Z.eqb (guild_id r) g && Z.eqb (user_id r) u
                        && match ended_at r with None => true | Some _ => false end) rows.

Definition with_db (b : bool) (st : St) : St :=
  mkSt (db_rows st) (db_next st) b (active_sessions st).

(** Run a program from a state, keeping its outcome and final state. *)
Definition run {A} (m : M A) (st : St) : option A * St := m st.

(** Scenario of the tests: setup at 0, offline -> online at 0. *)
Definition online_at_0 : St :=
  snd (run (let! _ := setup 0 in
            handle_presence_update 1 42 (RStr "offline") (RStr "online") 0) empty_state).

(** Sum of [ended_at - started_at] over the closed rows of a list. *)
Definition closed_span (r : PresenceSession) : Z :=
  match ended_at r with Some e => e - started_at r | None => 0 end.

Fixpoint sum_closed (rows : list PresenceSession) : Z :=
  match rows with [] => 0 | r :: rs => closed_span r + sum_closed rs end.

(** Rows of key [(g, u)] whose status is in [ss]. *)
Definition key_rows (g u : Z) (ss : list string) (rows : list PresenceSession) :=
  List.filter (Database.row_matches g u ss) rows.

(** A row without its [ended_at]: what no UPDATE of the code changes. *)
Definition row_core (r : PresenceSession) : Z * Z * Z * string * Z :=
  (row_id r, guild_id r, user_id r, status r, started_at r).

(** The order of [ORDER BY started_at ASC]. *)
Definition by_start (a b : PresenceSession) : Prop := started_at a <= started_at b.

(** What the in-memory active session of the key adds to a query over
    the statuses [ss] at [now]. *)
Definition active_span (g u : Z) (ss : list string) (now : Z) (st : St) : Z :=
  match active_sessions st !! (g, u) with
  | Some a => if existsb (String.eqb (as_status a)) ss then now - as_started_at a else 0
  | None => 0
  end.

(** One observable event against the tracker: a presence update, a member
    snapshot at boot, a duration query, or the database file becoming
    (un)available.  Every outcome counts, raised exceptions included. *)
Inductive step : St -> St -> Prop :=
| step_update g u b a t st :
    step st (snd (handle_presence_update g u b a t st))
| step_bootstrap g u s t st :
    step st (snd (bootstrap_member g u s t st))
| step_query g u fs now st :
    step st (snd (get_total_duration g u fs now st))
| step_db b st :
    step st (with_db b st).

(** AUTOINCREMENT: ids are distinct and below the counter. *)
Definition ids_ok (st : St) : Prop :=
  List.NoDup (map row_id (db_rows st)) /\ Forall (fun r => row_id r < db_next st) (db_rows st).

(** Every in-memory active session references an open row of its key. *)
Definition active_rows_open (st : St) : Prop :=
  forall k a, active_sessions st !! k = Some a ->
    exists r, In r (db_rows st) /\ row_id r = as_row_id a
              /\ (guild_id r, user_id r) = k /\ ended_at r = None.

Definition tracker_inv (st : St) : Prop := ids_ok st /\ active_rows_open st.

(** A row stays as it is and no active session may complete it. *)
Definition row_kept (r : PresenceSession) (st : St) : Prop :=
  In r (db_rows st) /\ row_id r < db_next st
  /\ forall k a, active_sessions st !! k = Some a -> as_row_id a <> row_id r.

(** [m] keeps [I], whether it returns or raises. *)
Definition Preserves (I : St -> Prop) {A} (m : M A) : Prop :=
  forall st, I st -> I (snd (m st)).

End Props.

Module FormatSpec.
Import Format.

(** Reading of the duration format that drops only the zero-valued
    LEADING components ("{h}h {m}m {s}s", "{m}m {s}s" or "{s}s"). *)
Definition format_leading_only (delta : Z) : string :=
  let ts := total_seconds_int delta in
  let h := ts / 3600 in
  let m := (ts mod 3600) / 60 in
  let s := ts mod 60 in
  if negb (h =? 0) then
    String.concat " " [z_to_string h ++ "h"; z_to_string m ++ "m"; z_to_string s ++ "s"]
  else if negb (m =? 0) then
    String.concat " " [z_to_string m ++ "m"; z_to_string s ++ "s"]
  else z_to_string s ++ "s".

(** The components the formatter keeps: every non-zero one, and the seconds
    when hours and minutes are both zero. *)
Definition kept_components (h m s : Z) : list string :=
  (if h =? 0 then [] else [z_to_string h ++ "h"]) ++
  (if m =? 0 then [] else [z_to_string m ++ "m"]) ++
  (if negb (s =? 0) || ((h =? 0) && (m =? 0)) then [z_to_string s ++ "s"] else []).

End FormatSpec.

(* ------------------------------------------------------------------ *)
(** ** Bot wiring (bot.py) *)

Module Bot.
Import Tracker Format.

(** [_bootstrap_guild]: [bootstrap_member] for each member in turn; an
    exception stops the loop.  Each member carries its id, its status and
    the clock reading ([datetime.now]) of its [bootstrap_member] call. *)
Fixpoint _bootstrap_guild (g : Z) (members : list (Z * RawStatus * Z)) : M unit :=
  match members with
  | [] => ret tt
  | (uid, s, now) :: ms =>
      let! _ := bootstrap_member g uid s now in
      _bootstrap_guild g ms
  end.

(** [status or 'online'] for an [Optional[str]]. *)
Definition status_or_online (status : option string) : string :=
  match status with
  | Some s => if String.eqb s "" then "online" else s
  | None => "online"
  end.

(** The [!online] command for a resolved [target] in guild [g], with its
    [display_name], the optional [status] argument and [now]; the result is
    the message sent with [ctx.send]. *)
Definition online (g target_id : Z) (display_name : string) (status : option string)
    (now : Z) : M string :=
  let checked :=
    match status with
    | None => inr None
    | Some s =>
        let normalized := _normalize_status (RStr s) in
        if negb (_is_tracked normalized)
        then inl "Status must be one of: online, idle, dnd."
        else inr (Some [normalized])
    end in
  match checked with
  | inl msg => ret msg
  | inr statuses =>
      let! total := get_total_duration g target_id statuses now in
      let formatted := format_timedelta total in
      ret (display_name ++ " has been " ++ status_or_online status ++ " for "
           ++ formatted ++ ".")
  end.

End Bot.

(* ================================================================== *)
(** * Properties *)

Import Tracker Format FormatSpec Props Bot.

(* ------------------------------------------------------------------ *)
(** ** Concrete runs *)

(** The test scenario [test_presence_cycle] gives 3h. *)
Example presence_cycle_3h :
  fst (run (let! _ := setup 0 in
            let! _ := handle_presence_update 1 42 (RStr "offline") (RStr "online") 0 in
            let! _ := handle_presence_update 1 42 (RStr "online") (RStr "idle") 7200 in
            let! _ := handle_presence_update 1 42 (RStr "idle") (RStr "offline") 10800 in
            get_total_duration 1 42 None 20000) empty_state) = Some 10800.
Proof. vm_compute. reflexivity. Qed.

(** [test_ignore_untracked_status] gives 30m. *)
Example ignore_untracked_30m :
  fst (run (let! _ := setup 0 in
            let! _ := handle_presence_update 1 99 (RStr "offline") (RStr "streaming") 0 in
            let! _ := handle_presence_update 1 99 (RStr "streaming") (RStr "online") 0 in
            let! _ := handle_presence_update 1 99 (RStr "online") (RStr "offline") 1800 in
            get_total_duration 1 99 None 5000) empty_state) = Some 1800.
Proof. vm_compute. reflexivity. Qed.

(** C1 (code_bug).  After setup and offline -> online at 0, the session is
    both an open row of the table and the in-memory active session; a query
    at 10 sums the open row as [now - started_at] = 10 and adds the active
    session's [now - started_at] = 10 again: 20, not 10. *)
Theorem total_counts_open_session_twice :
  open_rows 1 42 (db_rows online_at_0) = [mkRow 1 1 42 "online" 0 None]
  /\ active_sessions online_at_0 !! (1, 42) = Some (mkActive 1 0 "online")
  /\ fst (get_total_duration 1 42 None 10 online_at_0) = Some 20.
Proof. vm_compute. repeat split. Qed.

(** C2 (code_bug).  After offline -> online at 0, an update whose
    [before] is untracked (a missed event) to "idle" at 10 does not close
    the "online" row: it inserts a second open row and overwrites the
    active entry, leaving two open rows for the key. *)
Theorem missed_before_leaves_two_open_rows :
  open_rows 1 42
    (db_rows (snd (handle_presence_update 1 42 (RStr "offline") (RStr "idle") 10 online_at_0)))
  = [mkRow 1 1 42 "online" 0 None; mkRow 2 1 42 "idle" 10 None].
Proof. vm_compute. reflexivity. Qed.

(** C3 (code_bug).  With the database unavailable, online -> offline at
    10 pops the active entry and then raises from [complete_session]: the
    call fails, the key is gone from the map, its row is still open. *)
Theorem close_failure_drops_active_entry :
  let st := with_db false online_at_0 in
  fst (handle_presence_update 1 42 (RStr "online") (RStr "offline") 10 st) = None
  /\ active_sessions st !! (1, 42) = Some (mkActive 1 0 "online")
  /\ active_sessions (snd (handle_presence_update 1 42 (RStr "online") (RStr "offline") 10 st))
       !! (1, 42) = None
  /\ open_rows 1 42
       (db_rows (snd (handle_presence_update 1 42 (RStr "online") (RStr "offline") 10 st)))
     = [mkRow 1 1 42 "online" 0 None].
Proof. vm_compute. repeat split. Qed.

(** C4 (counterexample).  For one hour the formatter prints "1h", not
    "1h 0m 0s": zero components are dropped wherever they stand. *)
Theorem format_one_hour_drops_trailing_zeros :
  format_timedelta (3600 * 1000000) = "1h"
  /\ format_leading_only (3600 * 1000000) = "1h 0m 0s"
  /\ format_timedelta (3600 * 1000000) <> format_leading_only (3600 * 1000000).
Proof. vm_compute. split; [reflexivity | split; [reflexivity | discriminate]]. Qed.

(** C4 (amended).  For a non-negative duration with [ts] whole seconds,
    [ts] splits as [3600 h + 60 m + s] with [m, s < 60]; the output joins
    with spaces "{h}h", "{m}m", "{s}s" for each NON-ZERO component, in this
    order, and shows "{s}s" also when hours and minutes are both zero
    (so a zero duration is "0s"); 2h5m9s, 0s and 90s give "2h 5m 9s",
    "0s" and "1m 30s". *)
Theorem format_timedelta_components (delta : Z) (Hnonneg : 0 <= delta) :
  let ts := total_seconds_int delta in
  let h := ts / 3600 in
  let m := (ts mod 3600) / 60 in
  let s := ts mod 60 in
  ts = 3600 * h + 60 * m + s /\ 0 <= h /\ 0 <= m < 60 /\ 0 <= s < 60
  /\ format_timedelta delta = String.concat " " (kept_components h m s)
  /\ (ts = 0 -> format_timedelta delta = "0s")
  /\ format_timedelta ((2 * 3600 + 5 * 60 + 9) * 1000000) = "2h 5m 9s"
  /\ format_timedelta 0 = "0s"
  /\ format_timedelta (90 * 1000000) = "1m 30s".
Proof.
  intros ts h m s.
  assert (Hts : 0 <= ts) by (unfold ts, total_seconds_int; apply Z.quot_pos; lia).
  assert (Hs : s = (ts mod 3600) mod 60).
  { unfold s. symmetry. apply Z.mod_mod_divide. exists 60. reflexivity. }
  assert (Hfmt : format_timedelta delta = String.concat " " (kept_components h m s)).
  { unfold format_timedelta, kept_components. fold ts.
    replace ((ts mod 3600) mod 60) with s by exact Hs.
    fold h. fold m.
    destruct (h =? 0), (m =? 0), (s =? 0); reflexivity. }
  repeat split.
  - pose proof (Z.div_mod ts 3600 ltac:(lia)) as E1.
    pose proof (Z.div_mod (ts mod 3600) 60 ltac:(lia)) as E2.
    unfold h, m. rewrite Hs. lia.
  - unfold h. apply Z.div_pos; lia.
  - unfold m. apply Z.div_pos; [apply Z.mod_pos_bound | ]; lia.
  - unfold m. pose proof (Z.mod_pos_bound ts 3600 ltac:(lia)).
    apply Z.div_lt_upper_bound; lia.
  - apply Z.mod_pos_bound; lia.
  - apply Z.mod_pos_bound; lia.
  - exact Hfmt.
  - intros H0. rewrite Hfmt. unfold h, m, s. rewrite H0. reflexivity.
Qed.

Lemma format_timedelta_components_witness :
  0 <= 3609 * 1000000 /\ format_timedelta (3609 * 1000000) = "1h 9s".
Proof.
  split; [lia |].
  destruct (format_timedelta_components (3609 * 1000000) ltac:(lia))
    as (_ & _ & _ & _ & Hf & _).
  rewrite Hf. vm_compute. reflexivity.
Defined.

(* ------------------------------------------------------------------ *)
(** ** The transition handler *)

Ltac unfold_tracker :=
  unfold handle_presence_update, bootstrap_member, get_total_duration,
    _close_session, pop_active, set_active_entry, Database.insert_session,
    Database.complete_session, Database.fetch_sessions, modify, gets, ret,
    bind, store_op, set_active, set_rows in *.

Ltac norm_bool_hyps :=
  repeat match goal with
  | H : (_ =? _)%string = true |- _ => apply String.eqb_eq in H; subst
  | H : (?x =? ?x)%string = false |- _ => rewrite String.eqb_refl in H; discriminate H
  | H : (_ =? _)%string = false |- _ => apply String.eqb_neq in H
  | H : negb _ = false |- _ => apply negb_false_iff in H
  | H : negb _ = true |- _ => apply negb_true_iff in H
  | H : (_ || _)%bool = true |- _ => apply orb_true_iff in H; destruct H
  | H : (_ || _)%bool = false |- _ => apply orb_false_iff in H; destruct H
  | H : (_ && _)%bool = true |- _ => apply andb_true_iff in H; destruct H
  | H : ?b = true, H' : ?b = false |- _ => rewrite H in H'; discriminate H'
  end.

(** C9.  When [handle_presence_update] returns, the key is in the active
    map iff the normalised [after] status is tracked, and then the active
    session's status is that normalised status. *)
Theorem handle_post_state (st : St) (g u : Z) (b a : RawStatus) (t : Z)
    (Hok : fst (handle_presence_update g u b a t st) = Some tt) :
  let st' := snd (handle_presence_update g u b a t st) in
  (is_Some (active_sessions st' !! (g, u)) <-> _is_tracked (_normalize_status a) = true)
  /\ forall x, active_sessions st' !! (g, u) = Some x -> as_status x = _normalize_status a.
Proof.
  revert Hok. unfold_tracker. destruct st as [rows nx up m]. simpl.
  repeat (case_match; simplify_eq/=); intros;
    rewrite ?lookup_insert_eq, ?lookup_delete_eq in *; simplify_eq/=.
  all: repeat match goal with
         | H : (_ =? _)%string = true |- _ => apply String.eqb_eq in H
         | H : negb _ = false |- _ => apply negb_false_iff in H
         end.
  all: split; [split; intros; simplify_map_eq; try by eauto | intros; simplify_map_eq; try by subst].
  all: match goal with H : is_Some _ |- _ => destruct H; by simplify_map_eq end.
Qed.

Lemma handle_post_state_witness :
  fst (handle_presence_update 1 42 (RStr "online") (RStr "idle") 10 online_at_0) = Some tt
  /\ is_Some (active_sessions
       (snd (handle_presence_update 1 42 (RStr "online") (RStr "idle") 10 online_at_0)) !! (1, 42)).
Proof.
  assert (Hok : fst (handle_presence_update 1 42 (RStr "online") (RStr "idle") 10 online_at_0)
                = Some tt) by (vm_compute; reflexivity).
  split; [exact Hok |].
  destruct (handle_post_state online_at_0 1 42 (RStr "online") (RStr "idle") 10 Hok) as [Hiff _].
  apply Hiff. vm_compute. reflexivity.
Defined.

(** C6.  Repeating [handle_presence_update] with [before = after = s]
    changes nothing the second time: the table, the counter and the active
    map are those left by the first call (whether the first call returned
    or raised). *)
Theorem handle_repeat_no_change (st : St) (g u : Z) (s : RawStatus) (t : Z) :
  let st1 := snd (handle_presence_update g u s s t st) in
  snd (handle_presence_update g u s s t st1) = st1.
Proof.
  destruct st as [rows nx up m]. unfold_tracker. simpl.
  repeat (case_match; simplify_eq/=); simplify_map_eq; norm_bool_hyps.
  all: congruence.
Qed.

(* ------------------------------------------------------------------ *)
(** ** Status filters *)

Lemma lower_tracked (x : string) : In x TRACKED_STATUSES -> lower x = x.
Proof. simpl. intros [<-|[<-|[<-|[]]]]; reflexivity. Qed.

Lemma is_tracked_In (x : string) : _is_tracked x = true <-> In x TRACKED_STATUSES.
Proof.
  unfold _is_tracked. rewrite existsb_exists. split.
  - intros (y & Hy & E). apply String.eqb_eq in E. subst. exact Hy.
  - intros Hx. exists x. split; [exact Hx | apply String.eqb_refl].
Qed.

(** Without tracked label the filter falls back to the tracked set. *)
Lemma normalize_statuses_no_tracked (l : list string) :
  (forall x, In x l -> _is_tracked (lower x) = false) ->
  _normalize_statuses (Some l) = TRACKED_STATUSES.
Proof.
  intros Hnone. unfold _normalize_statuses.
  assert (E : List.filter _is_tracked (map (fun s => _normalize_status (RStr s)) l) = []).
  { induction l as [|y l IH]; [reflexivity |]. simpl.
    rewrite (Hnone y (or_introl eq_refl)).
    apply IH. intros z Hz. apply Hnone. right. exact Hz. }
  rewrite E. reflexivity.
Qed.

(** C10.  A filter with at least one tracked label (after lower-casing)
    is reduced to its tracked members, in order, the others dropped; only a
    filter without tracked label (the empty one included) falls back to
    the full tracked set. *)
Theorem normalize_statuses_mixed (l : list string) :
  ((exists x, In x l /\ _is_tracked (lower x) = true) ->
     _normalize_statuses (Some l) = List.filter _is_tracked (map lower l)
     /\ _normalize_statuses (Some l) <> [])
  /\ ((forall x, In x l -> _is_tracked (lower x) = false) ->
     _normalize_statuses (Some l) = TRACKED_STATUSES).
Proof.
  assert (Em : map (fun s => _normalize_status (RStr s)) l = map lower l)
    by (apply map_ext; reflexivity).
  unfold _normalize_statuses. rewrite Em. split.
  - intros (x & Hx & Ht).
    assert (Hin : In (lower x) (List.filter _is_tracked (map lower l))).
    { apply filter_In. split; [apply in_map; exact Hx | exact Ht]. }
    destruct (List.filter _is_tracked (map lower l)) as [|y ys] eqn:E; [destruct Hin |].
    split; [reflexivity | discriminate].
  - rewrite <- Em. apply normalize_statuses_no_tracked.
Qed.

Lemma fold_span_acc (now : Z) (l : list PresenceSession) (acc : Z) :
  fold_left (fun total r => total + session_span now r) l acc = acc + sum_spans now l.
Proof.
  unfold sum_spans. revert acc. induction l as [|r l IH]; intros acc; simpl; [lia |].
  rewrite (IH (acc + _)), (IH (0 + _)). lia.
Qed.

Lemma sum_spans_nil (now : Z) : sum_spans now [] = 0.
Proof. reflexivity. Qed.

Lemma sum_spans_cons (now : Z) (r : PresenceSession) (l : list PresenceSession) :
  sum_spans now (r :: l) = session_span now r + sum_spans now l.
Proof. unfold sum_spans at 1. simpl. rewrite fold_span_acc. lia. Qed.

Lemma sum_spans_perm (now : Z) (l1 l2 : list PresenceSession) :
  Permutation l1 l2 -> sum_spans now l1 = sum_spans now l2.
Proof.
  induction 1 as [| r l1 l2 _ IH | r1 r2 l | l1 l2 l3 _ IH1 _ IH2];
    rewrite ?sum_spans_cons; lia.
Qed.

Lemma insert_by_start_perm (r : PresenceSession) (l : list PresenceSession) :
  Permutation (Database.insert_by_start r l) (r :: l).
Proof.
  induction l as [|r' l IH]; simpl; [reflexivity |].
  destruct (started_at r <? started_at r'); [reflexivity |].
  rewrite IH. apply perm_swap.
Qed.

Lemma sort_by_start_perm (l : list PresenceSession) :
  Permutation (Database.sort_by_start l) l.
Proof.
  induction l as [|r l IH]; simpl; [reflexivity |].
  rewrite insert_by_start_perm, IH. reflexivity.
Qed.

(** [ORDER BY started_at] does not change the sum. *)
Lemma sum_select_sessions (now g u : Z) (ss : list string) (rows : list PresenceSession) :
  sum_spans now (Database.select_sessions g u ss rows) = sum_spans now (key_rows g u ss rows).
Proof. apply sum_spans_perm, sort_by_start_perm. Qed.

(** [get_total_duration] sums the matching rows (open ones up to [now])
    and adds the active session of the key when its status is selected. *)
Lemma get_total_duration_eq (g u : Z) (fs : option (list string)) (now : Z) (st : St) :
  db_up st = true ->
  get_total_duration g u fs now st
  = (Some (sum_spans now (key_rows g u (_normalize_statuses fs) (db_rows st))
           + active_span g u (_normalize_statuses fs) now st), st).
Proof.
  intros Hup. unfold get_total_duration, active_span, Database.fetch_sessions,
    store_op, bind, gets, ret. rewrite Hup.
  rewrite sum_select_sessions.
  destruct (active_sessions st !! (g, u)) as [a|]; [| f_equal; f_equal; lia].
  destruct (existsb _ _); f_equal; f_equal; lia.
Qed.

(** C8.  A query whose filter is a non-empty list of tracked statuses uses
    exactly that list: it sums the rows of the key whose status is in the
    list (no other row) and adds the active session only when its status is
    in the list.  A filter with no tracked label (the empty list included)
    is replaced by the full tracked set, without error. *)
Theorem status_filter_semantics (l : list string) (g u now : Z) (st : St)
    (Hne : l <> []) (Hsub : forall x, In x l -> In x TRACKED_STATUSES)
    (Hup : db_up st = true) :
  _normalize_statuses (Some l) = l
  /\ get_total_duration g u (Some l) now st
     = (Some (sum_spans now (key_rows g u l (db_rows st)) + active_span g u l now st), st)
  /\ (forall r, In r (key_rows g u l (db_rows st)) -> In (status r) l)
  /\ (forall a, active_sessions st !! (g, u) = Some a -> ~ In (as_status a) l ->
        active_span g u l now st = 0)
  /\ (forall l', (forall x, In x l' -> _is_tracked (lower x) = false) ->
        _normalize_statuses (Some l') = TRACKED_STATUSES
        /\ fst (get_total_duration g u (Some l') now st)
           = fst (get_total_duration g u None now st)).
Proof.
  assert (Hn : _normalize_statuses (Some l) = l).
  { unfold _normalize_statuses.
    assert (Em : map (fun s => _normalize_status (RStr s)) l = l).
    { clear Hne. induction l as [|x l IH]; [reflexivity |]. simpl.
      rewrite lower_tracked by (apply Hsub; left; reflexivity).
      f_equal. apply IH. intros y Hy. apply Hsub. right. exact Hy. }
    rewrite Em.
    assert (Ef : List.filter _is_tracked l = l).
    { clear Hne Em. induction l as [|x l IH]; [reflexivity |]. simpl.
      assert (Hx : _is_tracked x = true) by (apply is_tracked_In, Hsub; left; reflexivity).
      rewrite Hx. f_equal. apply IH. intros y Hy. apply Hsub. right. exact Hy. }
    rewrite Ef. destruct l; [congruence | reflexivity]. }
  split; [exact Hn |]. split.
  { rewrite get_total_duration_eq by exact Hup. rewrite Hn. reflexivity. }
  split.
  { intros r Hr. apply filter_In in Hr as [_ Hm]. unfold Database.row_matches in Hm.
    apply andb_true_iff in Hm as [_ Hm]. apply existsb_exists in Hm as (y & Hy & E).
    apply String.eqb_eq in E. subst. exact Hy. }
  split.
  { intros a Ha Hnot. unfold active_span. rewrite Ha.
    destruct (existsb (String.eqb (as_status a)) l) eqn:E; [| reflexivity].
    apply existsb_exists in E as (y & Hy & E'). apply String.eqb_eq in E'. subst.
    contradiction. }
  intros l' Hl'.
  assert (Hn' : _normalize_statuses (Some l') = TRACKED_STATUSES)
    by (apply normalize_statuses_no_tracked; exact Hl').
  split; [exact Hn' |].
  rewrite !get_total_duration_eq by exact Hup. rewrite Hn'. reflexivity.
Qed.

Lemma status_filter_semantics_witness :
  get_total_duration 1 42 (Some ["idle"]) 10 online_at_0 = (Some 0, online_at_0).
Proof.
  destruct (status_filter_semantics ["idle"] 1 42 10 online_at_0
              ltac:(discriminate) ltac:(simpl; intros x [<-|[]]; right; left; reflexivity)
              ltac:(reflexivity)) as (_ & E & _).
  rewrite E. vm_compute. reflexivity.
Defined.

(* ------------------------------------------------------------------ *)
(** ** Invariants over every reachable state *)

Section Preservation.
Variable I : St -> Prop.

Lemma preserves_bind {A B} (m : M A) (k : A -> M B) :
  Preserves I m -> (forall a, Preserves I (k a)) -> Preserves I (bind m k).
Proof.
  intros Hm Hk st Hst. unfold bind.
  specialize (Hm st Hst). destruct (m st) as [[a|] st'] eqn:E; simpl in *.
  - apply Hk. exact Hm.
  - exact Hm.
Qed.

Lemma preserves_ret {A} (a : A) : Preserves I (ret a).
Proof. intros st H. exact H. Qed.

Lemma preserves_gets {A} (f : St -> A) : Preserves I (gets f).
Proof. intros st H. exact H. Qed.

Lemma preserves_fetch (g u : Z) (ss : list string) :
  Preserves I (Database.fetch_sessions g u ss).
Proof. intros st H. unfold Database.fetch_sessions, store_op. by destruct (db_up st). Qed.

(** Closing through [_close_session] and opening through an insert followed
    by the map update are the only blocks that change the state. *)
Hypothesis close_ok : forall key t, Preserves I (_close_session key t).
Hypothesis open_ok : forall g u s t,
  Preserves I (let! rid := Database.insert_session g u s t in
               set_active_entry (g, u) (mkActive rid t s)).

Ltac preserve :=
  repeat first
    [ apply open_ok | apply close_ok | apply preserves_ret | apply preserves_gets
    | apply preserves_fetch
    | apply preserves_bind; [| intro ]
    | case_match ].

Lemma preserves_handle g u b a t : Preserves I (handle_presence_update g u b a t).
Proof. unfold handle_presence_update. cbv zeta. preserve. Qed.

Lemma preserves_bootstrap g u s t : Preserves I (bootstrap_member g u s t).
Proof. unfold bootstrap_member. cbv zeta. preserve. Qed.

Lemma preserves_query g u fs now : Preserves I (get_total_duration g u fs now).
Proof. unfold get_total_duration. cbv zeta. preserve. Qed.

Hypothesis db_ok : forall b st, I st -> I (with_db b st).

Lemma reachable_preserves st st' : I st -> rtc step st st' -> I st'.
Proof.
  intros Hst Hr. induction Hr as [st|st1 st2 st3 Hs _ IH]; [exact Hst |].
  apply IH. destruct Hs.
  - by apply preserves_handle.
  - by apply preserves_bootstrap.
  - by apply preserves_query.
  - by apply db_ok.
Qed.

End Preservation.

Lemma close_session_state (key : Z * Z) (t : Z) (st : St) :
  snd (_close_session key t st)
  = match active_sessions st !! key with
    | Some s =>
        if db_up st
        then mkSt (map (Database.complete_row (as_row_id s) t) (db_rows st)) (db_next st)
                  (db_up st) (delete key (active_sessions st))
        else mkSt (db_rows st) (db_next st) (db_up st) (delete key (active_sessions st))
    | None => mkSt (db_rows st) (db_next st) (db_up st) (delete key (active_sessions st))
    end.
Proof.
  destruct st as [rows nx up m]. unfold_tracker. simpl.
  destruct (m !! key); [destruct up|]; reflexivity.
Qed.

Lemma open_block_state (g u : Z) (s : string) (t : Z) (st : St) :
  snd ((let! rid := Database.insert_session g u s t in
        set_active_entry (g, u) (mkActive rid t s)) st)
  = if db_up st
    then mkSt (db_rows st ++ [mkRow (db_next st) g u s t None]) (db_next st + 1) (db_up st)
              (<[(g, u) := mkActive (db_next st) t s]> (active_sessions st))
    else st.
Proof. destruct st as [rows nx up m]. unfold_tracker. simpl. by destruct up. Qed.

Lemma row_ids_unique (rows : list PresenceSession) (r1 r2 : PresenceSession) :
  List.NoDup (map row_id rows) -> In r1 rows -> In r2 rows -> row_id r1 = row_id r2 -> r1 = r2.
Proof.
  induction rows as [|r rows IH]; simpl; [tauto |].
  intros Hnd H1 H2 E. apply NoDup_cons_iff in Hnd as [Hnot Hnd].
  destruct H1 as [<-|H1], H2 as [<-|H2]; try reflexivity.
  - exfalso. apply Hnot. rewrite E. apply in_map. exact H2.
  - exfalso. apply Hnot. rewrite <- E. apply in_map. exact H1.
  - by apply IH.
Qed.

Lemma complete_row_other (rid t : Z) (r : PresenceSession) :
  row_id r <> rid -> Database.complete_row rid t r = r.
Proof. intros Hne. unfold Database.complete_row. by rewrite (proj2 (Z.eqb_neq _ _) Hne). Qed.

Lemma map_row_id_complete (rid t : Z) (rows : list PresenceSession) :
  map row_id (map (Database.complete_row rid t) rows) = map row_id rows.
Proof.
  induction rows as [|r rows IH]; simpl; [reflexivity |].
  rewrite IH. unfold Database.complete_row. by destruct (row_id r =? rid).
Qed.

Lemma forall_complete_row (P : Z -> Prop) (rid t : Z) (rows : list PresenceSession) :
  Forall (fun r => P (row_id r)) rows ->
  Forall (fun r => P (row_id r)) (map (Database.complete_row rid t) rows).
Proof.
  intros H. apply Forall_map. eapply Forall_impl; [exact H |].
  intros r Hr. unfold Database.complete_row. by destruct (row_id r =? rid).
Qed.

Lemma close_keeps_tracker_inv (key : Z * Z) (t : Z) : Preserves tracker_inv (_close_session key t).
Proof.
  intros st [[Hnd Hlt] Hopen]. rewrite close_session_state.
  destruct (active_sessions st !! key) as [s|] eqn:Hs; [destruct (db_up st) |].
  - split; [split |]; simpl.
    + by rewrite map_row_id_complete.
    + by apply (forall_complete_row (fun i => i < db_next st)).
    + intros k a Ha. cbn in Ha. apply lookup_delete_Some in Ha as [Hk Ha].
      destruct (Hopen k a Ha) as (r & Hr & Hid & Hkey & Hend).
      destruct (Hopen key s Hs) as (rs & Hrs & Hids & Hkeys & _).
      assert (Hne : row_id r <> as_row_id s).
      { intros E. assert (r = rs) by (apply (row_ids_unique (db_rows st)); congruence).
        subst. congruence. }
      exists r. split; [| done].
      rewrite <- (complete_row_other (as_row_id s) t r Hne). by apply in_map.
  - split; [split |]; simpl; [done | done |].
    intros k a Ha. cbn in Ha. apply lookup_delete_Some in Ha as [_ Ha]. by apply Hopen.
  - split; [split |]; simpl; [done | done |].
    intros k a Ha. cbn in Ha. apply lookup_delete_Some in Ha as [_ Ha]. by apply Hopen.
Qed.

Lemma open_keeps_tracker_inv (g u : Z) (s : string) (t : Z) :
  Preserves tracker_inv (let! rid := Database.insert_session g u s t in
                         set_active_entry (g, u) (mkActive rid t s)).
Proof.
  intros st Hst. rewrite open_block_state. destruct (db_up st) eqn:Hup; [| exact Hst].
  destruct Hst as [[Hnd Hlt] Hopen]. split; [split |]; simpl.
  - rewrite map_app. simpl. apply List.NoDup_app.
    + exact Hnd.
    + constructor; [intros [] | constructor].
    + intros i Hi [Ei|[]]. apply in_map_iff in Hi as (r & <- & Hr).
      rewrite List.Forall_forall in Hlt. specialize (Hlt r Hr). lia.
  - apply Forall_app. split.
    + eapply Forall_impl; [exact Hlt |]. intros r Hr. simpl in Hr. lia.
    + constructor; [simpl; lia | constructor].
  - intros k a Ha. cbn in Ha. destruct (decide (k = (g, u))) as [->|Hk].
    + rewrite lookup_insert_eq in Ha. injection Ha as <-.
      eexists. split; [apply in_or_app; right; left; reflexivity |]. done.
    + rewrite lookup_insert_ne in Ha by congruence.
      destruct (Hopen k a Ha) as (r & Hr & H1 & H2 & H3).
      exists r. split; [apply in_or_app; left; exact Hr | done].
Qed.

Lemma tracker_inv_reachable (st st' : St) :
  tracker_inv st -> rtc step st st' -> tracker_inv st'.
Proof.
  apply reachable_preserves.
  - apply close_keeps_tracker_inv.
  - apply open_keeps_tracker_inv.
  - intros b s H. exact H.
Qed.

Lemma sum_spans_closed (now : Z) (l : list PresenceSession) :
  (forall r, In r l -> ended_at r <> None) -> sum_spans now l = sum_closed l.
Proof.
  induction l as [|r l IH]; intros Hc; [reflexivity |].
  rewrite sum_spans_cons. simpl. rewrite IH by (intros r' Hr'; apply Hc; right; exact Hr').
  unfold session_span, closed_span.
  destruct (ended_at r) eqn:E; [reflexivity |].
  exfalso. apply (Hc r); [left; reflexivity | exact E].
Qed.

Lemma not_in_open_rows (g u : Z) (rows : list PresenceSession) (r : PresenceSession) :
  open_rows g u rows = [] -> In r rows -> guild_id r = g -> user_id r = u -> ended_at r <> None.
Proof.
  intros Hnil Hr Hg Hu Hend.
  assert (Hin : In r (open_rows g u rows)).
  { apply filter_In. split; [exact Hr |]. rewrite Hg, Hu, Hend, !Z.eqb_refl. reflexivity. }
  rewrite Hnil in Hin. destruct Hin.
Qed.

(** C5.  In every state reached from a tracker with an empty active map
    (the state [setup] leaves) through any events, once every row of the key
    is closed the query returns the sum of [ended_at - started_at] over the
    key's closed rows whose status is in the (normalised) filter, and
    changes nothing. *)
Theorem total_when_all_closed (st0 st : St) (g u : Z) (fs : option (list string)) (now : Z)
    (Hempty : active_sessions st0 = ∅) (Hids : ids_ok st0) (Hreach : rtc step st0 st)
    (Hup : db_up st = true) (Hclosed : open_rows g u (db_rows st) = []) :
  get_total_duration g u fs now st
  = (Some (sum_closed (key_rows g u (_normalize_statuses fs) (db_rows st))), st).
Proof.
  assert (Hinv : tracker_inv st).
  { apply (tracker_inv_reachable st0); [| exact Hreach].
    split; [exact Hids |]. intros k a Ha. rewrite Hempty, lookup_empty in Ha. discriminate. }
  destruct Hinv as [_ Hopen].
  assert (Hna : active_sessions st !! (g, u) = None).
  { destruct (active_sessions st !! (g, u)) as [a|] eqn:Ha; [| reflexivity].
    destruct (Hopen (g, u) a Ha) as (r & Hr & _ & Hk & Hend). injection Hk as Hg Hu.
    exfalso. exact (not_in_open_rows g u (db_rows st) r Hclosed Hr Hg Hu Hend). }
  rewrite get_total_duration_eq by exact Hup.
  unfold active_span. rewrite Hna, Z.add_0_r.
  rewrite sum_spans_closed; [reflexivity |].
  intros r Hr. apply filter_In in Hr as [Hr Hm].
  unfold Database.row_matches in Hm. apply andb_true_iff in Hm as [Hm _].
  apply andb_true_iff in Hm as [Hg Hu]. apply Z.eqb_eq in Hg, Hu.
  exact (not_in_open_rows g u (db_rows st) r Hclosed Hr Hg Hu).
Qed.

(** Online at 0, idle at 7200, offline at 10800: both rows closed. *)
Lemma total_when_all_closed_witness :
  let st1 := snd (handle_presence_update 1 42 (RStr "offline") (RStr "online") 0 empty_state) in
  let st2 := snd (handle_presence_update 1 42 (RStr "online") (RStr "idle") 7200 st1) in
  let st3 := snd (handle_presence_update 1 42 (RStr "idle") (RStr "offline") 10800 st2) in
  get_total_duration 1 42 None 20000 st3 = (Some 10800, st3).
Proof.
  intros st1 st2 st3.
  rewrite (total_when_all_closed empty_state st3 1 42 None 20000).
  - vm_compute. reflexivity.
  - reflexivity.
  - split; [constructor | constructor].
  - apply (rtc_l _ _ st1); [apply step_update |].
    apply (rtc_l _ _ st2); [apply step_update |].
    apply rtc_once. apply step_update.
  - vm_compute. reflexivity.
  - vm_compute. reflexivity.
Defined.

Lemma close_keeps_row (r : PresenceSession) (key : Z * Z) (t : Z) :
  Preserves (row_kept r) (_close_session key t).
Proof.
  intros st (Hr & Hlt & Hno). rewrite close_session_state.
  destruct (active_sessions st !! key) as [s|] eqn:Hs; [destruct (db_up st) |];
    (split; [| split]); simpl; try exact Hlt;
    try (intros k a Ha; apply lookup_delete_Some in Ha as [_ Ha]; exact (Hno k a Ha)).
  - rewrite <- (complete_row_other (as_row_id s) t r); [by apply in_map |].
    intros E. exact (Hno key s Hs (eq_sym E)).
  - exact Hr.
  - exact Hr.
Qed.

Lemma open_keeps_row (r : PresenceSession) (g u : Z) (s : string) (t : Z) :
  Preserves (row_kept r) (let! rid := Database.insert_session g u s t in
                          set_active_entry (g, u) (mkActive rid t s)).
Proof.
  intros st Hst. rewrite open_block_state. destruct (db_up st); [| exact Hst].
  destruct Hst as (Hr & Hlt & Hno). split; [| split]; simpl.
  - apply in_or_app. left. exact Hr.
  - lia.
  - intros k a Ha. destruct (decide (k = (g, u))) as [->|Hk].
    + rewrite lookup_insert_eq in Ha. injection Ha as <-. simpl. lia.
    + rewrite lookup_insert_ne in Ha by congruence. exact (Hno k a Ha).
Qed.

Lemma row_kept_reachable (r : PresenceSession) (st st' : St) :
  row_kept r st -> rtc step st st' -> row_kept r st'.
Proof.
  apply reachable_preserves.
  - apply close_keeps_row.
  - apply open_keeps_row.
  - intros b s H. exact H.
Qed.

Lemma setup_state (T : Z) (st st1 : St) :
  setup T st = (Some tt, st1) ->
  st1 = mkSt (map (Database.close_row_if_open T) (db_rows st)) (db_next st) (db_up st)
             (active_sessions st).
Proof.
  destruct st as [rows nx up m].
  unfold setup, Database.initialize, Database.close_open_sessions, bind, store_op, set_rows.
  simpl. destruct up; simpl; intros H; congruence.
Qed.

Lemma in_perm_split (x : PresenceSession) (l : list PresenceSession) :
  In x l -> exists rest, Permutation l (x :: rest).
Proof.
  intros Hx. apply in_split in Hx as (l1 & l2 & ->).
  exists (app l1 l2). symmetry. apply Permutation_middle.
Qed.

(** Row ids stay unique and below the counter: inserts take the counter
    and increment it, the UPDATEs keep every id. *)
Lemma ids_ok_close (key : Z * Z) (t : Z) : Preserves ids_ok (_close_session key t).
Proof.
  intros st [Hnd Hlt]. rewrite close_session_state.
  destruct (active_sessions st !! key) as [s|]; [destruct (db_up st) |];
    split; simpl; try done.
  - by rewrite map_row_id_complete.
  - by apply (forall_complete_row (fun i => i < db_next st)).
Qed.

Lemma ids_ok_open (g u : Z) (s : string) (t : Z) :
  Preserves ids_ok (let! rid := Database.insert_session g u s t in
                    set_active_entry (g, u) (mkActive rid t s)).
Proof.
  intros st Hst. rewrite open_block_state. destruct (db_up st) eqn:Hup; [| exact Hst].
  destruct Hst as [Hnd Hlt]. split; simpl.
  - rewrite map_app. simpl. apply List.NoDup_app.
    + exact Hnd.
    + constructor; [intros [] | constructor].
    + intros i Hi [Ei|[]]. apply in_map_iff in Hi as (r & <- & Hr).
      rewrite List.Forall_forall in Hlt. specialize (Hlt r Hr). lia.
  - apply Forall_app. split.
    + eapply Forall_impl; [exact Hlt |]. intros r Hr. simpl in Hr. lia.
    + constructor; [simpl; lia | constructor].
Qed.

Lemma ids_ok_reachable (st st' : St) : ids_ok st -> rtc step st st' -> ids_ok st'.
Proof.
  apply reachable_preserves.
  - apply ids_ok_close.
  - apply ids_ok_open.
  - intros b s H. exact H.
Qed.

Lemma ids_ok_setup (T : Z) (st st1 : St) :
  ids_ok st -> setup T st = (Some tt, st1) -> ids_ok st1.
Proof.
  intros [Hnd Hlt] Hs. apply setup_state in Hs. subst st1. split; simpl.
  - assert (E : map row_id (map (Database.close_row_if_open T) (db_rows st))
                = map row_id (db_rows st)).
    { clear. induction (db_rows st) as [|x l IH]; simpl; [reflexivity |].
      rewrite IH. unfold Database.close_row_if_open. by destruct (ended_at x). }
    by rewrite E.
  - apply Forall_map. eapply Forall_impl; [exact Hlt |].
    intros x Hx. unfold Database.close_row_if_open. by destruct (ended_at x).
Qed.

Lemma nodup_ids_filter (f : PresenceSession -> bool) (rows : list PresenceSession) :
  List.NoDup (map row_id rows) -> List.NoDup (map row_id (List.filter f rows)).
Proof.
  induction rows as [|x l IH]; simpl; [done |].
  intros Hnd. apply NoDup_cons_iff in Hnd as [Hnot Hnd].
  destruct (f x); simpl; [| by apply IH].
  constructor; [| by apply IH].
  intros Hin. apply Hnot. apply in_map_iff in Hin as (y & Ey & Hy).
  apply filter_In in Hy as [Hy _]. rewrite <- Ey. by apply in_map.
Qed.

(** With unique ids, the only row of a list carrying [r]'s id is [r]. *)
Lemma filter_id_single (l : list PresenceSession) (r : PresenceSession) :
  List.NoDup (map row_id l) -> In r l ->
  List.filter (fun x => row_id x =? row_id r) l = [r].
Proof.
  induction l as [|x l IH]; simpl; [tauto |].
  intros Hnd Hin. apply NoDup_cons_iff in Hnd as [Hnot Hnd].
  assert (Hnone : forall y, In y l -> row_id y = row_id x -> False).
  { intros y Hy E. apply Hnot. rewrite <- E. by apply in_map. }
  destruct Hin as [<-|Hin].
  - rewrite Z.eqb_refl. f_equal. clear IH Hnd Hnot.
    induction l as [|y l IHl]; simpl; [reflexivity |].
    destruct (row_id y =? row_id x) eqn:E.
    + apply Z.eqb_eq in E. exfalso. exact (Hnone y (or_introl eq_refl) E).
    + apply IHl. intros z Hz. apply Hnone. right. exact Hz.
  - destruct (row_id x =? row_id r) eqn:E.
    + apply Z.eqb_eq in E. exfalso. exact (Hnone r Hin (eq_sym E)).
    + by apply IH.
Qed.

Lemma perm_filter_split (p : PresenceSession -> bool) (l : list PresenceSession) :
  Permutation l (app (List.filter p l) (List.filter (fun x => negb (p x)) l)).
Proof.
  induction l as [|x l IH]; simpl; [constructor |].
  destruct (p x); simpl.
  - by apply perm_skip.
  - eapply perm_trans; [apply perm_skip, IH |]. apply Permutation_middle.
Qed.

(** In a list with unique ids, [r] contributes its span once; the rest of
    the sum comes from the rows with other ids. *)
Lemma sum_spans_single (now : Z) (l : list PresenceSession) (r : PresenceSession) :
  List.NoDup (map row_id l) -> In r l ->
  sum_spans now l
  = session_span now r + sum_spans now (List.filter (fun x => negb (row_id x =? row_id r)) l).
Proof.
  intros Hnd Hin.
  rewrite (sum_spans_perm now _ _ (perm_filter_split (fun x => row_id x =? row_id r) l)).
  rewrite (filter_id_single l r Hnd Hin). simpl. apply sum_spans_cons.
Qed.

(** C7.  Startup recovery.  Let the table have unique row ids below the
    AUTOINCREMENT counter, and let a row [r] be open with no in-memory
    active session pointing at it.  After [setup] at time [T] returns, [r]
    is closed at [T]; in every later state (any events, failures included)
    it is still there, closed at [T], it is the only row with its id, and no
    active session points at it.  A query on its key whose filter includes
    its status fetches it exactly once: the sum is [T - started_at] plus the
    spans of the rows with other ids, and [get_total_duration] returns that
    plus the active-session term. *)
Theorem setup_closes_stale_row (st0 st1 st : St) (T : Z) (r : PresenceSession)
    (Hids : ids_ok st0)
    (Hr : In r (db_rows st0)) (Hopen : ended_at r = None)
    (Hfree : forall k a, active_sessions st0 !! k = Some a -> as_row_id a <> row_id r)
    (Hsetup : setup T st0 = (Some tt, st1)) (Hreach : rtc step st1 st) :
  let r' := mkRow (row_id r) (guild_id r) (user_id r) (status r) (started_at r) (Some T) in
  let others := fun x => negb (row_id x =? row_id r) in
  In r' (db_rows st)
  /\ (forall now, session_span now r' = T - started_at r)
  /\ List.filter (fun x => row_id x =? row_id r) (db_rows st) = [r']
  /\ (forall k a, active_sessions st !! k = Some a -> as_row_id a <> row_id r)
  /\ (forall fs now, In (status r) (_normalize_statuses fs) ->
        let l := Database.select_sessions (guild_id r) (user_id r)
                   (_normalize_statuses fs) (db_rows st) in
        List.filter (fun x => row_id x =? row_id r) l = [r']
        /\ sum_spans now l = (T - started_at r) + sum_spans now (List.filter others l))
  /\ (db_up st = true -> forall fs now, In (status r) (_normalize_statuses fs) ->
        get_total_duration (guild_id r) (user_id r) fs now st
        = (Some ((T - started_at r)
                 + sum_spans now (List.filter others
                     (key_rows (guild_id r) (user_id r) (_normalize_statuses fs) (db_rows st)))
                 + active_span (guild_id r) (user_id r) (_normalize_statuses fs) now st), st)).
Proof.
  intros r' others.
  assert (Hid : row_id r < db_next st0).
  { destruct Hids as [_ Hlt]. rewrite List.Forall_forall in Hlt. exact (Hlt r Hr). }
  assert (Hids' : ids_ok st)
    by (apply (ids_ok_reachable st1); [apply (ids_ok_setup T st0) |]; assumption).
  assert (Hk : row_kept r' st).
  { apply (row_kept_reachable r' st1); [| exact Hreach].
    apply setup_state in Hsetup. subst st1. split; [| split]; simpl.
    - replace r' with (Database.close_row_if_open T r)
        by (unfold Database.close_row_if_open; rewrite Hopen; reflexivity).
      by apply in_map.
    - exact Hid.
    - exact Hfree. }
  destruct Hk as (Hin & _ & Hnot). destruct Hids' as [Hnd _].
  assert (Hspan : forall now, session_span now r' = T - started_at r) by reflexivity.
  split; [exact Hin |]. split; [exact Hspan |].
  split; [exact (filter_id_single _ r' Hnd Hin) |]. split; [exact Hnot |].
  assert (Hkey : forall fs, In (status r) (_normalize_statuses fs) ->
            In r' (key_rows (guild_id r) (user_id r) (_normalize_statuses fs) (db_rows st))).
  { intros fs Hst. apply filter_In. split; [exact Hin |].
    unfold Database.row_matches. simpl. rewrite !Z.eqb_refl. simpl.
    apply existsb_exists. exists (status r). split; [exact Hst | apply String.eqb_refl]. }
  split.
  - intros fs now Hst l.
    assert (Hp : Permutation l (key_rows (guild_id r) (user_id r) (_normalize_statuses fs)
                                 (db_rows st))) by apply sort_by_start_perm.
    assert (Hl : In r' l) by (eapply Permutation_in; [symmetry; exact Hp | apply Hkey, Hst]).
    assert (Hndl : List.NoDup (map row_id l)).
    { eapply Permutation_NoDup; [apply Permutation_map; symmetry; exact Hp |].
      by apply nodup_ids_filter. }
    split; [exact (filter_id_single l r' Hndl Hl) |].
    rewrite (sum_spans_single now l r' Hndl Hl). reflexivity.
  - intros Hup fs now Hst. rewrite get_total_duration_eq by exact Hup.
    rewrite (sum_spans_single now
               (key_rows (guild_id r) (user_id r) (_normalize_statuses fs) (db_rows st)) r'
               (nodup_ids_filter _ _ Hnd) (Hkey fs Hst)).
    reflexivity.
Qed.

(** A stale "online" row opened at 0 is closed by [setup] at 100; after a
    new session 200..300 the query on "online" gives 100 + 100. *)
Lemma setup_closes_stale_row_witness :
  let st0 := mkSt [mkRow 1 1 42 "online" 0 None; mkRow 2 1 42 "idle" 5 (Some 9)] 3 true ∅ in
  let st1 := snd (setup 100 st0) in
  let st2 := snd (handle_presence_update 1 42 (RStr "offline") (RStr "online") 200 st1) in
  let st3 := snd (handle_presence_update 1 42 (RStr "online") (RStr "offline") 300 st2) in
  In (mkRow 1 1 42 "online" 0 (Some 100)) (db_rows st3)
  /\ fst (get_total_duration 1 42 (Some ["online"]) 1000 st3) = Some 200.
Proof.
  intros st0 st1 st2 st3. split.
  - refine (proj1 (setup_closes_stale_row st0 st1 st3 100 (mkRow 1 1 42 "online" 0 None)
                     _ _ _ _ _ _)).
    + split; simpl.
      * constructor; [simpl; intros [H|[]]; discriminate | constructor; [intros [] | constructor]].
      * constructor; [simpl; lia | constructor; [simpl; lia | constructor]].
    + left. reflexivity.
    + reflexivity.
    + intros k a Ha. cbn in Ha. rewrite lookup_empty in Ha. discriminate.
    + vm_compute. reflexivity.
    + apply (rtc_l _ _ st2); [apply step_update |].
      apply rtc_once. apply step_update.
  - vm_compute. reflexivity.
Defined.

(* ------------------------------------------------------------------ *)
(** ** Further properties of the code *)

Lemma bootstrap_member_state (g u : Z) (s : RawStatus) (now : Z) (st : St) :
  bootstrap_member g u s now st
  = if negb (_is_tracked (_normalize_status s)) then (Some tt, st)
    else match active_sessions st !! (g, u) with
         | Some _ => (Some tt, st)
         | None =>
             if db_up st
             then (Some tt, mkSt (db_rows st ++ [mkRow (db_next st) g u (_normalize_status s) now None])
                                 (db_next st + 1) (db_up st)
                                 (<[(g, u) := mkActive (db_next st) now (_normalize_status s)]>
                                    (active_sessions st)))
             else (None, st)
         end.
Proof.
  destruct st as [rows nx up m]. unfold_tracker. cbn.
  destruct (negb _); [reflexivity |]. cbn. destruct (m !! (g, u)); [reflexivity |].
  by destruct up.
Qed.

(** X1.  [bootstrap_member] never replaces an active session: when the
    status is untracked or the key is already active it returns without
    touching the table or the map, even when the database is unavailable.
    When it returns, every entry present before is still there, and the key
    is active iff it was active before or the status is tracked, with the
    normalised status when it was not active before. *)
Theorem bootstrap_member_keeps_active (g u : Z) (s : RawStatus) (now : Z) (st : St) :
  ((_is_tracked (_normalize_status s) = false \/ is_Some (active_sessions st !! (g, u))) ->
     bootstrap_member g u s now st = (Some tt, st))
  /\ (fst (bootstrap_member g u s now st) = Some tt ->
      let st' := snd (bootstrap_member g u s now st) in
      (forall k a, active_sessions st !! k = Some a -> active_sessions st' !! k = Some a)
      /\ (is_Some (active_sessions st' !! (g, u))
          <-> is_Some (active_sessions st !! (g, u)) \/ _is_tracked (_normalize_status s) = true)
      /\ (active_sessions st !! (g, u) = None ->
          forall a, active_sessions st' !! (g, u) = Some a -> as_status a = _normalize_status s)).
Proof.
  rewrite !bootstrap_member_state. split.
  - intros [Ht | [a Ha]].
    + by rewrite Ht.
    + rewrite Ha. by destruct (negb _).
  - destruct (_is_tracked (_normalize_status s)) eqn:Ht; simpl.
    + destruct (active_sessions st !! (g, u)) as [a0|] eqn:Ha; simpl.
      * intros _. split; [done |]. split; [| done]. rewrite Ha. split; [left; done | done].
      * destruct (db_up st); simpl; [| discriminate]. intros _.
        split; [| split].
        -- intros k a Hk. rewrite lookup_insert_ne; [exact Hk | congruence].
        -- rewrite lookup_insert_eq. split; [right; reflexivity | done].
        -- intros _ a Hs. rewrite lookup_insert_eq in Hs. by injection Hs as <-.
    + intros _. split; [done |]. split; [| intros Hn a Hs; congruence].
      split; [intros H; left; exact H | intros [H | H]; [exact H | discriminate]].
Qed.

(** X2.  After [_bootstrap_guild] returns, every listed member whose
    status is tracked is active in that guild, and every session active
    before is still active. *)
Theorem bootstrap_guild_activates (g : Z) (members : list (Z * RawStatus * Z)) (st : St)
    (Hok : fst (_bootstrap_guild g members st) = Some tt) :
  let st' := snd (_bootstrap_guild g members st) in
  (forall uid s t, In (uid, s, t) members -> _is_tracked (_normalize_status s) = true ->
     is_Some (active_sessions st' !! (g, uid)))
  /\ (forall k a, active_sessions st !! k = Some a -> active_sessions st' !! k = Some a).
Proof.
  revert st Hok. induction members as [|[[uid s] t] ms IH]; intros st Hok; simpl in Hok |- *.
  - split; [intros ? ? ? [] | done].
  - unfold bind in *. destruct (bootstrap_member g uid s t st) as [[[]|] st1] eqn:Eb;
      [| simpl in Hok; discriminate].
    destruct (proj2 (bootstrap_member_keeps_active g uid s t st)) as (Hkeep & Hiff & _);
      [by rewrite Eb |].
    rewrite Eb in Hkeep, Hiff. simpl in Hkeep, Hiff.
    destruct (IH st1 Hok) as [Hall Hmono]. split.
    + intros uid' s' t' [E | Hin] Htr.
      * injection E as <- <- <-. destruct (proj2 Hiff (or_intror Htr)) as [a Ha].
        rewrite (Hmono _ _ Ha). eauto.
      * exact (Hall uid' s' t' Hin Htr).
    + intros k a Ha. apply Hmono, Hkeep, Ha.
Qed.

Lemma bootstrap_guild_activates_witness :
  let members := [(42, RStr "Online", 5); (43, RStr "offline", 5); (44, RNone, 6)] in
  fst (_bootstrap_guild 1 members empty_state) = Some tt
  /\ is_Some (active_sessions (snd (_bootstrap_guild 1 members empty_state)) !! (1, 42)).
Proof.
  intros members.
  assert (Hok : fst (_bootstrap_guild 1 members empty_state) = Some tt)
    by (vm_compute; reflexivity).
  split; [exact Hok |].
  apply (proj1 (bootstrap_guild_activates 1 members empty_state Hok) 42 (RStr "Online") 5).
  - left. reflexivity.
  - reflexivity.
Defined.

Lemma insert_by_start_sorted (r : PresenceSession) (l : list PresenceSession) :
  Sorted by_start l -> Sorted by_start (Database.insert_by_start r l).
Proof.
  induction 1 as [| r' l Hs IH Hhd]; simpl.
  - repeat constructor.
  - destruct (started_at r <? started_at r') eqn:E.
    + apply Z.ltb_lt in E. constructor; [constructor; assumption |].
      constructor. unfold by_start. lia.
    + apply Z.ltb_ge in E. constructor; [exact IH |].
      destruct l as [|r'' l]; simpl.
      * constructor. unfold by_start. lia.
      * inversion Hhd as [| ? ? Hle]; subst.
        destruct (started_at r <? started_at r''); constructor; unfold by_start in *; lia.
Qed.

Lemma sort_by_start_sorted (l : list PresenceSession) : Sorted by_start (Database.sort_by_start l).
Proof. induction l as [|r l IH]; simpl; [constructor | by apply insert_by_start_sorted]. Qed.

(** X3.  [fetch_sessions] returns exactly the rows of the key whose status
    is in the requested tuple (each once, none other), ordered by
    [started_at] ascending, and leaves the state as it is; with the
    database unavailable it raises. *)
Theorem fetch_sessions_sorted_exact (g u : Z) (ss : list string) (st : St) :
  (db_up st = true ->
   exists l, Database.fetch_sessions g u ss st = (Some l, st)
     /\ Sorted by_start l
     /\ Permutation l (key_rows g u ss (db_rows st))
     /\ (forall r, In r l -> guild_id r = g /\ user_id r = u /\ In (status r) ss))
  /\ (db_up st = false -> Database.fetch_sessions g u ss st = (None, st)).
Proof.
  unfold Database.fetch_sessions, store_op. split; intros Hup; rewrite Hup; [| reflexivity].
  eexists. split; [reflexivity |]. split; [apply sort_by_start_sorted |].
  split; [apply sort_by_start_perm |].
  intros r Hr. unfold Database.select_sessions in Hr.
  eapply Permutation_in in Hr; [| apply sort_by_start_perm].
  apply filter_In in Hr as [_ Hm]. unfold Database.row_matches in Hm.
  apply andb_true_iff in Hm as [Hm Hs]. apply andb_true_iff in Hm as [Hg Hu].
  apply Z.eqb_eq in Hg, Hu. apply existsb_exists in Hs as (y & Hy & E).
  apply String.eqb_eq in E. subst. auto.
Qed.

(** X4.  [close_open_sessions at]: afterwards no row is open; rows that
    were already closed are unchanged; the rows keep their ids and order. *)
Theorem close_open_sessions_closes_all (T : Z) (st : St) (Hup : db_up st = true) :
  let st' := snd (Database.close_open_sessions T st) in
  fst (Database.close_open_sessions T st) = Some tt
  /\ (forall r, In r (db_rows st') -> exists e, ended_at r = Some e)
  /\ (forall r, In r (db_rows st) -> ended_at r <> None -> In r (db_rows st'))
  /\ map row_id (db_rows st') = map row_id (db_rows st)
  /\ active_sessions st' = active_sessions st.
Proof.
  unfold Database.close_open_sessions, store_op. rewrite Hup. simpl.
  split; [reflexivity |]. split; [| split; [| split; [| reflexivity]]].
  - intros r Hr. apply in_map_iff in Hr as (r0 & <- & _).
    unfold Database.close_row_if_open. destruct (ended_at r0) eqn:E; simpl; eauto.
  - intros r Hr Hc. replace r with (Database.close_row_if_open T r); [by apply in_map |].
    unfold Database.close_row_if_open. destruct (ended_at r); [reflexivity | congruence].
  - rewrite map_map. apply map_ext. intros r.
    unfold Database.close_row_if_open. by destruct (ended_at r).
Qed.

Lemma close_open_sessions_closes_all_witness :
  let st := mkSt [mkRow 1 1 42 "online" 0 None; mkRow 2 1 43 "idle" 5 (Some 9)] 3 true ∅ in
  db_rows (snd (Database.close_open_sessions 50 st))
  = [mkRow 1 1 42 "online" 0 (Some 50); mkRow 2 1 43 "idle" 5 (Some 9)]
  /\ fst (Database.close_open_sessions 50 st) = Some tt.
Proof.
  intros st. split; [reflexivity |].
  exact (proj1 (close_open_sessions_closes_all 50 st eq_refl)).
Defined.

(** X5.  [complete_session] has no guard on rows already closed: completing
    the same id twice leaves the second timestamp (the later call wins),
    and rows with another id are never changed. *)
Theorem complete_session_last_wins (rid t1 t2 : Z) (st : St) (Hup : db_up st = true) :
  snd (Database.complete_session rid t2 (snd (Database.complete_session rid t1 st)))
  = snd (Database.complete_session rid t2 st)
  /\ (forall r, In r (db_rows st) -> row_id r <> rid ->
        In r (db_rows (snd (Database.complete_session rid t1 st))))
  /\ (forall r, In r (db_rows st) -> row_id r = rid ->
        In (mkRow rid (guild_id r) (user_id r) (status r) (started_at r) (Some t1))
           (db_rows (snd (Database.complete_session rid t1 st)))).
Proof.
  destruct st as [rows nx up m]. simpl in Hup. subst up.
  unfold Database.complete_session, store_op, set_rows. simpl.
  split; [| split].
  - f_equal. rewrite map_map. apply map_ext. intros r.
    unfold Database.complete_row. destruct (row_id r =? rid) eqn:E; simpl; [| by rewrite E].
    by rewrite E.
  - intros r Hr Hne. rewrite <- (complete_row_other rid t1 r Hne). by apply in_map.
  - intros r Hr <-. replace (mkRow _ _ _ _ _ _) with (Database.complete_row (row_id r) t1 r);
      [by apply in_map |].
    unfold Database.complete_row. by rewrite Z.eqb_refl.
Qed.

Lemma complete_session_last_wins_witness :
  let st := mkSt [mkRow 1 1 42 "online" 0 (Some 10)] 2 true ∅ in
  db_rows (snd (Database.complete_session 1 20 (snd (Database.complete_session 1 10 st))))
  = [mkRow 1 1 42 "online" 0 (Some 20)].
Proof.
  intros st. rewrite (proj1 (complete_session_last_wins 1 10 20 st eq_refl)). reflexivity.
Defined.

Lemma row_core_complete (rid t : Z) (rows : list PresenceSession) :
  map row_core (map (Database.complete_row rid t) rows) = map row_core rows.
Proof.
  rewrite map_map. apply map_ext. intros r. unfold Database.complete_row.
  by destruct (row_id r =? rid).
Qed.

(** X6.  Sessions are never deleted or reordered: across any sequence of
    events (updates, snapshots, queries, failures) the rows present before
    are still the first rows of the table, in the same order, with the same
    id, guild, user, status and start; new rows are only appended. *)
Theorem rows_only_appended (st st' : St) (Hreach : rtc step st st') :
  map row_core (db_rows st) `prefix_of` map row_core (db_rows st').
Proof.
  refine (reachable_preserves
            (fun s => map row_core (db_rows st) `prefix_of` map row_core (db_rows s))
            _ _ _ st st' _ Hreach); [| | | reflexivity].
  - intros key t s Hs. rewrite close_session_state.
    destruct (active_sessions s !! key); [destruct (db_up s) |]; simpl;
      try rewrite row_core_complete; exact Hs.
  - intros g u x t s Hs. rewrite open_block_state. destruct (db_up s); [| exact Hs].
    simpl. rewrite map_app. by apply prefix_app_r.
  - intros b s Hs. exact Hs.
Qed.

Lemma rows_only_appended_witness :
  map row_core (db_rows empty_state) `prefix_of` map row_core (db_rows online_at_0).
Proof.
  apply rows_only_appended. unfold online_at_0, run.
  change (snd ((let! _ := setup 0 in
                handle_presence_update 1 42 (RStr "offline") (RStr "online") 0) empty_state))
    with (snd (handle_presence_update 1 42 (RStr "offline") (RStr "online") 0 empty_state)).
  apply rtc_once. apply step_update.
Defined.

(** X7.  Every in-memory active session always points at an open row of its
    own key, and row ids stay unique and below the AUTOINCREMENT counter:
    this holds in every state reached by any events from a tracker with an
    empty map over a table with unique ids below the counter. *)
Theorem active_sessions_point_to_open_rows (st0 st : St)
    (Hempty : active_sessions st0 = ∅) (Hids : ids_ok st0) (Hreach : rtc step st0 st) :
  ids_ok st /\ active_rows_open st.
Proof.
  apply (tracker_inv_reachable st0); [| exact Hreach].
  split; [exact Hids |]. intros k a Ha. rewrite Hempty, lookup_empty in Ha. discriminate.
Qed.

Lemma active_sessions_point_to_open_rows_witness :
  ids_ok online_at_0 /\ active_rows_open online_at_0.
Proof.
  apply (active_sessions_point_to_open_rows empty_state).
  - reflexivity.
  - split; constructor.
  - apply (rtc_l _ _ (snd (handle_presence_update 1 42 (RStr "offline") (RStr "online") 0
                            empty_state))); [apply step_update |].
    apply rtc_refl.
Defined.

(** X8.  A closed row is never touched again by events: from any state
    satisfying the tracker invariant, a row whose [ended_at] is set is still
    in the table, with the same [ended_at], after any sequence of updates,
    snapshots, queries and failures. *)
Theorem closed_rows_stay_closed (st0 st : St) (r : PresenceSession)
    (Hinv : tracker_inv st0) (Hr : In r (db_rows st0)) (Hc : ended_at r <> None)
    (Hreach : rtc step st0 st) :
  In r (db_rows st).
Proof.
  refine (proj2 (reachable_preserves (fun s => tracker_inv s /\ In r (db_rows s))
                   _ _ _ st0 st (conj Hinv Hr) Hreach)).
  - intros key t s [Hs Hin]. split; [by apply close_keeps_tracker_inv |].
    rewrite close_session_state.
    destruct (active_sessions s !! key) as [a|] eqn:Ha; [destruct (db_up s) |]; simpl;
      try exact Hin.
    destruct Hs as [[Hnd _] Hopen].
    destruct (Hopen key a Ha) as (ro & Hro & Hid & _ & Hend).
    assert (Hne : row_id r <> as_row_id a).
    { intros E. assert (r = ro) by (apply (row_ids_unique (db_rows s)); congruence).
      subst. congruence. }
    rewrite <- (complete_row_other (as_row_id a) t r Hne). by apply in_map.
  - intros g u x t s [Hs Hin]. split; [by apply open_keeps_tracker_inv |].
    rewrite open_block_state. destruct (db_up s); [| exact Hin].
    simpl. apply in_or_app. left. exact Hin.
  - intros b s Hs. exact Hs.
Qed.

Lemma closed_rows_stay_closed_witness :
  let st0 := mkSt [mkRow 1 1 42 "online" 0 (Some 10)] 2 true ∅ in
  let st1 := snd (handle_presence_update 1 42 (RStr "offline") (RStr "online") 20 st0) in
  In (mkRow 1 1 42 "online" 0 (Some 10))
     (db_rows (snd (handle_presence_update 1 42 (RStr "online") (RStr "offline") 30 st1))).
Proof.
  intros st0 st1.
  apply (closed_rows_stay_closed st0).
  - split; [split; [constructor; [intros [] | constructor]
                   | constructor; [simpl; lia | constructor]] |].
    intros k a Ha. cbn in Ha. rewrite lookup_empty in Ha. discriminate.
  - left. reflexivity.
  - discriminate.
  - apply (rtc_l _ _ st1); [apply step_update |]. apply rtc_once. apply step_update.
Defined.

Section KeyFrame.
Variables (g u : Z) (I : St -> Prop).
Hypothesis close_at_key : forall t, Preserves I (_close_session (g, u) t).
Hypothesis open_at_key : forall s t,
  Preserves I (let! rid := Database.insert_session g u s t in
               set_active_entry (g, u) (mkActive rid t s)).

Lemma preserves_handle_key b a t : Preserves I (handle_presence_update g u b a t).
Proof.
  unfold handle_presence_update. cbv zeta.
  repeat first
    [ apply open_at_key | apply close_at_key | apply preserves_ret | apply preserves_gets
    | apply preserves_bind; [| intro ]
    | case_match ].
Qed.
End KeyFrame.

Lemma complete_row_key (rid t : Z) (r : PresenceSession) :
  (guild_id (Database.complete_row rid t r), user_id (Database.complete_row rid t r))
  = (guild_id r, user_id r).
Proof. unfold Database.complete_row. by destruct (row_id r =? rid). Qed.

(** X9.  [handle_presence_update] for [(g, u)] touches nothing of other
    keys: from a state satisfying the tracker invariant, whether the call
    returns or raises, the active sessions of every other key and the rows of
    every other key are exactly as before. *)
Theorem handle_frame_other_keys (g u : Z) (b a : RawStatus) (t : Z) (st : St)
    (Hinv : tracker_inv st) :
  let st' := snd (handle_presence_update g u b a t st) in
  (forall k, k <> (g, u) -> active_sessions st' !! k = active_sessions st !! k)
  /\ (forall r, (guild_id r, user_id r) <> (g, u) -> In r (db_rows st') <-> In r (db_rows st)).
Proof.
  refine (proj2 (preserves_handle_key g u
    (fun s => tracker_inv s
       /\ (forall k, k <> (g, u) -> active_sessions s !! k = active_sessions st !! k)
       /\ (forall r, (guild_id r, user_id r) <> (g, u) -> In r (db_rows s) <-> In r (db_rows st)))
    _ _ b a t st (conj Hinv (conj (fun _ _ => eq_refl) (fun _ _ => iff_refl _))))).
  - intros t' s (Hs & Hm & Hr). split; [by apply close_keeps_tracker_inv |].
    rewrite close_session_state.
    destruct (active_sessions s !! (g, u)) as [x|] eqn:Hx; [destruct (db_up s) |]; simpl;
      (split; [intros k Hk; rewrite lookup_delete_ne by congruence; by apply Hm |]);
      try exact Hr.
    destruct Hs as [[Hnd _] Hopen].
    destruct (Hopen (g, u) x Hx) as (ro & Hro & Hid & Hkey & _).
    intros r Hk. rewrite <- Hr by exact Hk. split.
    + intros Hin. apply in_map_iff in Hin as (r0 & <- & Hr0).
      destruct (Z.eq_dec (row_id r0) (as_row_id x)) as [E|Hne].
      * exfalso. assert (r0 = ro) by (apply (row_ids_unique (db_rows s)); congruence).
        subst r0. apply Hk. rewrite complete_row_key. exact Hkey.
      * rewrite complete_row_other by exact Hne. exact Hr0.
    + intros Hin. assert (Hne : row_id r <> as_row_id x).
      { intros E. assert (r = ro) by (apply (row_ids_unique (db_rows s)); congruence).
        subst r. congruence. }
      rewrite <- (complete_row_other (as_row_id x) t' r Hne). by apply in_map.
  - intros x t' s (Hs & Hm & Hr). split; [by apply open_keeps_tracker_inv |].
    rewrite open_block_state. destruct (db_up s); [| exact (conj Hm Hr)]. simpl. split.
    + intros k Hk. rewrite lookup_insert_ne by congruence. by apply Hm.
    + intros r Hk. rewrite <- Hr by exact Hk. rewrite in_app_iff. simpl.
      split; [intros [H|[E|[]]]; [exact H | subst r; simpl in Hk; congruence] | tauto].
Qed.

Lemma handle_frame_other_keys_witness :
  let st := snd (bootstrap_member 1 43 (RStr "idle") 0 online_at_0) in
  active_sessions (snd (handle_presence_update 1 42 (RStr "online") (RStr "offline") 10 st))
    !! (1, 43) = Some (mkActive 2 0 "idle").
Proof.
  intros st.
  assert (Hinv : tracker_inv st).
  { apply (tracker_inv_reachable empty_state).
    - split; [split; constructor |]. intros k a Ha. cbn in Ha.
      rewrite lookup_empty in Ha. discriminate.
    - apply (rtc_l _ _ (snd (handle_presence_update 1 42 (RStr "offline") (RStr "online") 0
                              empty_state))); [apply step_update |].
      apply rtc_once. apply step_bootstrap. }
  rewrite (proj1 (handle_frame_other_keys 1 42 (RStr "online") (RStr "offline") 10 st Hinv)).
  - vm_compute. reflexivity.
  - congruence.
Defined.

(** X10.  A change between two different tracked statuses, with [before]
    tracked, closes the active session's row at [timestamp] and opens a new
    row for the new status starting at the same [timestamp] (no gap, no
    overlap), which becomes the active session. *)
Theorem handle_switch_tracked (g u : Z) (b a : RawStatus) (t : Z) (st : St) (x : ActiveSession)
    (Hinv : tracker_inv st) (Hup : db_up st = true)
    (Hx : active_sessions st !! (g, u) = Some x)
    (Hb : _is_tracked (_normalize_status b) = true)
    (Ha : _is_tracked (_normalize_status a) = true)
    (Hne : _normalize_status a <> as_status x) :
  let st' := snd (handle_presence_update g u b a t st) in
  fst (handle_presence_update g u b a t st) = Some tt
  /\ (exists r, In r (db_rows st) /\ row_id r = as_row_id x /\ ended_at r = None
       /\ In (mkRow (row_id r) (guild_id r) (user_id r) (status r) (started_at r) (Some t))
             (db_rows st'))
  /\ In (mkRow (db_next st) g u (_normalize_status a) t None) (db_rows st')
  /\ active_sessions st' !! (g, u) = Some (mkActive (db_next st) t (_normalize_status a)).
Proof.
  destruct Hinv as [_ Hopen].
  destruct (Hopen (g, u) x Hx) as (r & Hr & Hid & _ & Hend).
  destruct st as [rows nx up m]. simpl in *. subst up.
  assert (Hne' : String.eqb (_normalize_status a) (as_status x) = false)
    by (apply String.eqb_neq; exact Hne).
  unfold_tracker. cbn -[_is_tracked String.eqb _normalize_status].
  rewrite Hx, Hb, Ha, Hne'. cbn -[_is_tracked String.eqb _normalize_status].
  rewrite Hx. cbn -[_is_tracked String.eqb _normalize_status].
  split; [reflexivity |]. split; [| split].
  - exists r. split; [exact Hr |]. split; [exact Hid |]. split; [exact Hend |].
    apply in_or_app. left.
    replace (mkRow _ _ _ _ _ _) with (Database.complete_row (as_row_id x) t r);
      [by apply in_map |].
    unfold Database.complete_row. by rewrite Hid, Z.eqb_refl.
  - apply in_or_app. right. left. reflexivity.
  - apply lookup_insert_eq.
Qed.

Lemma handle_switch_tracked_witness :
  let st' := snd (handle_presence_update 1 42 (RStr "online") (RStr "idle") 7200 online_at_0) in
  In (mkRow 1 1 42 "online" 0 (Some 7200)) (db_rows st')
  /\ In (mkRow 2 1 42 "idle" 7200 None) (db_rows st').
Proof.
  intros st'.
  assert (Hinv : tracker_inv online_at_0).
  { apply (tracker_inv_reachable empty_state).
    - split; [split; constructor |]. intros k a Ha. cbn in Ha.
      rewrite lookup_empty in Ha. discriminate.
    - apply rtc_once. apply step_update. }
  destruct (handle_switch_tracked 1 42 (RStr "online") (RStr "idle") 7200 online_at_0
              (mkActive 1 0 "online") Hinv eq_refl ltac:(vm_compute; reflexivity)
              eq_refl eq_refl ltac:(discriminate))
    as (_ & (r & Hr & Hid & _ & Hin) & Hnew & _).
  simpl in Hr. destruct Hr as [<-|[]]. split; [exact Hin | exact Hnew].
Defined.

(** X11.  A duration query never changes the table or the active map,
    whether it returns or raises; it raises exactly when the database is
    unavailable. *)
Theorem get_total_duration_read_only (g u : Z) (fs : option (list string)) (now : Z) (st : St) :
  snd (get_total_duration g u fs now st) = st
  /\ (fst (get_total_duration g u fs now st) = None <-> db_up st = false).
Proof.
  destruct (db_up st) eqn:Hup.
  - rewrite get_total_duration_eq by exact Hup. simpl. split; [reflexivity | split; discriminate].
  - unfold get_total_duration, Database.fetch_sessions, store_op, bind. rewrite Hup.
    simpl. split; [reflexivity | tauto].
Qed.

Lemma lower_ascii_idem (c : ascii) : lower_ascii (lower_ascii c) = lower_ascii c.
Proof. destruct c as [[] [] [] [] [] [] [] []]; reflexivity. Qed.

Lemma lower_idem (s : string) : lower (lower s) = lower s.
Proof. induction s as [|c s IH]; simpl; [reflexivity | by rewrite lower_ascii_idem, IH]. Qed.

(** X14.  The [!online] command.  A status argument whose lower-cased form
    is not tracked is answered with the error message, without any query or
    state change (even with the database down).  A tracked one restricts the
    query to exactly that status, and the reply echoes the argument as typed.
    Without argument the query covers online, idle and dnd together, yet the
    reply says "online". *)
Theorem online_command_filter (g target : Z) (name : string) (now : Z) (st : St) :
  (forall s, _is_tracked (lower s) = false ->
     online g target name (Some s) now st
     = (Some "Status must be one of: online, idle, dnd.", st))
  /\ (db_up st = true -> forall s, _is_tracked (lower s) = true ->
     online g target name (Some s) now st
     = (Some (name ++ " has been " ++ s ++ " for "
              ++ format_timedelta (sum_spans now (key_rows g target [lower s] (db_rows st))
                                   + active_span g target [lower s] now st) ++ "."), st))
  /\ (db_up st = true ->
     online g target name None now st
     = (Some (name ++ " has been online for "
              ++ format_timedelta (sum_spans now (key_rows g target TRACKED_STATUSES (db_rows st))
                                   + active_span g target TRACKED_STATUSES now st) ++ "."), st)).
Proof.
  split; [| split].
  - intros s Hs. unfold online. simpl. rewrite Hs. reflexivity.
  - intros Hup s Hs. unfold online. simpl. rewrite Hs. simpl.
    unfold bind. rewrite get_total_duration_eq by exact Hup.
    assert (En : _normalize_statuses (Some [lower s]) = [lower s]).
    { unfold _normalize_statuses. simpl. rewrite lower_idem, Hs. reflexivity. }
    rewrite En. unfold ret. do 3 f_equal.
    unfold status_or_online.
    destruct (String.eqb s "") eqn:E; [| reflexivity].
    apply String.eqb_eq in E. subst s. discriminate Hs.
  - intros Hup. unfold online. simpl. unfold bind.
    rewrite get_total_duration_eq by exact Hup. reflexivity.
Qed.
